(** * Express adapter of the SMART client: [src/lib/express.js]

    A shallow embedding of the Express-specific high-level API
    ([getClient], [authorize], [completeAuth], [refreshAuth]) together
    with the default session-backed storage factory [getStorage].

    JavaScript values are an inductive type. A request carries its
    parsed query string and its session object: the session's own
    properties and the members it inherits from its prototype chain, both
    finite maps from property names to values. The handlers are
    computations of a small state-and-exception monad whose state is the
    request (mutable session) plus the trace of the calls a handler makes
    on its collaborators ([res], [next], [debug], the OAuth core [./lib]
    and the FHIR [Client]).

    Where the outcome of a step is decided by JavaScript that is not
    described here (the body of a function object that gets called, the
    exponent notation of a large number, a setter or read-only member of
    the session's prototype), the computation ends with [Outside] and
    nothing is said about it. *)

From Stdlib Require Import Strings.Ascii.
From stdpp Require Import base strings gmap list pretty.

Set Warnings "-register-all".
Local Open Scope string_scope.
Local Open Scope Z_scope.

(** ** JavaScript values *)

(** The values a session or a parsed query string can hold. [VNum] covers
    the integer-valued numbers (HTTP status codes, expiry times); other
    floating point numbers are outside this model. [VFun] is a function
    object, identified by its name: a built-in method such as [toString]
    or [hasOwnProperty], or a method of the session class. Such a
    function is only passed around here; what it returns when it is
    called is not described, and functions that would change the request
    when called are not values of this model. *)
Inductive value :=
  | VUndefined
  | VNull
  | VBool (b : bool)
  | VNum (n : Z)
  | VStr (s : string)
  | VArr (items : list value)
  | VObj (fields : list (string * value))
  | VFun (name : string).

(** ToBoolean: what [if (v)], [v && w], [v || w] and [v ? a : b] test. *)
Definition truthy (v : value) : bool :=
  match v with
  | VUndefined | VNull => false
  | VBool b => b
  | VNum n => negb (n =? 0)
  | VStr s => negb (String.eqb s "")
  | VArr _ | VObj _ | VFun _ => true
  end.

(** [a && b] and [a || b] return one of their operands. *)
Definition js_and (a b : value) : value := if truthy a then b else a.
Definition js_or (a b : value) : value := if truthy a then a else b.

(** The string a value converts to when its conversion succeeds (see
    [to_primitive] for when it does): an array joins its elements with
    commas, [null] and [undefined] elements giving the empty string; a
    plain object gives ["[object Object]"]; a built-in function prints
    as native code. *)
Fixpoint to_string (v : value) : string :=
  match v with
  | VUndefined => "undefined"
  | VNull => "null"
  | VBool true => "true"
  | VBool false => "false"
  | VNum n => pretty n
  | VStr s => s
  | VArr items =>
      (fix join (l : list value) : string :=
         match l with
         | [] => ""
         | x :: rest =>
             let sx := match x with
                       | VUndefined | VNull => ""
                       | _ => to_string x
                       end in
             match rest with
             | [] => sx
             | _ :: _ => sx +:+ "," +:+ join rest
             end
         end) items
  | VObj _ => "[object Object]"
  | VFun name => "function " +:+ name +:+ "() { [native code] }"
  end.

(** The string literal [":\n"] of the source: a colon and a line feed. *)
Definition colon_newline : string := String ":"%char (String "010"%char EmptyString).

(** [obj[key]] on a map of properties: a missing property reads as
    [undefined]. *)
Definition prop (obj : gmap string value) (key : string) : value :=
  default VUndefined (obj !! key).

(** Property lookup in an object literal, first binding wins. *)
Fixpoint assoc (fields : list (string * value)) (key : string) : value :=
  match fields with
  | [] => VUndefined
  | (k, v) :: rest => if String.eqb k key then v else assoc rest key
  end.

(** The own property [key] of an object literal, if it has one. *)
Fixpoint own (fields : list (string * value)) (key : string) : option value :=
  match fields with
  | [] => None
  | (k, v) :: rest => if String.eqb k key then Some v else own rest key
  end.

(** ** Outcomes *)

(** A call either returns (a promise resolves) or throws (a promise
    rejects) with a JavaScript value; [Outside] marks an outcome that
    depends on JavaScript this development does not describe. *)
Inductive result (A : Type) :=
  | Ok (a : A)
  | Throw (e : value)
  | Outside.
Arguments Ok {A} a.
Arguments Throw {A} e.
Arguments Outside {A}.

(** Errors raised by the language itself. *)
Definition ReferenceError (name : string) : value :=
  VObj [("name", VStr "ReferenceError");
        ("message", VStr (name +:+ " is not defined"))].

Definition TypeError (message : string) : value :=
  VObj [("name", VStr "TypeError"); ("message", VStr message)].

(** ** Conversion to a string *)

(** ToPrimitive tries two methods of an object in an order given by the
    hint: [toString] then [valueOf] for a property key, [valueOf] then
    [toString] for the operand of [+]. *)
Inductive hint := HintString | HintDefault.

(** The integers that print in plain decimal with all their digits. *)
Definition prints_exactly (n : Z) : bool := Z.abs n <? 2 ^ 53.

(** An object without own [toString] and [valueOf] inherits them: the
    inherited [toString] gives ["[object Object]"], the inherited
    [valueOf] gives the object back, which is no primitive. An own member
    that is not a function is skipped; when no method is left the
    conversion throws. What an own function returns is not described. *)
Definition object_to_primitive (h : hint) (fields : list (string * value)) : result string :=
  match h with
  | HintString =>
      match own fields "toString" with
      | None => Ok "[object Object]"
      | Some (VFun _) => Outside
      | Some _ =>
          match own fields "valueOf" with
          | Some (VFun _) => Outside
          | _ => Throw (TypeError "Cannot convert object to primitive value")
          end
      end
  | HintDefault =>
      match own fields "valueOf" with
      | Some (VFun _) => Outside
      | _ =>
          match own fields "toString" with
          | None => Ok "[object Object]"
          | Some (VFun _) => Outside
          | Some _ => Throw (TypeError "Cannot convert object to primitive value")
          end
      end
  end.

(** ToPrimitive followed by ToString, as a property key ([HintString])
    and as the operand of a string concatenation ([HintDefault]) undergo
    it. The elements of an array are converted in order, as strings. A
    number beyond the exactly printed range and the source text of a
    function are not described. *)
Fixpoint to_primitive (h : hint) (v : value) : result string :=
  match v with
  | VNum n => if prints_exactly n then Ok (pretty n) else Outside
  | VArr items =>
      (fix join (l : list value) : result string :=
         match l with
         | [] => Ok ""
         | x :: rest =>
             match (match x with
                    | VUndefined | VNull => Ok ""
                    | _ => to_primitive HintString x
                    end) with
             | Ok sx =>
                 match rest with
                 | [] => Ok sx
                 | _ :: _ =>
                     match join rest with
                     | Ok sr => Ok (sx +:+ "," +:+ sr)
                     | Throw e => Throw e
                     | Outside => Outside
                     end
                 end
             | Throw e => Throw e
             | Outside => Outside
             end
         end) items
  | VObj fields => object_to_primitive h fields
  | VFun _ => Outside
  | _ => Ok (to_string v)
  end.

(** ** Requests, collaborator calls and the handler monad *)

(** [req]: the parsed query string and the session object. [session]
    holds the properties of the session that are its own ordinary data
    properties (writable and removable: what the application and the
    storage put there). [builtin] holds the other members the session
    object comes with, under the values they read as: those inherited
    from its prototype chain ([toString], [hasOwnProperty], the methods
    of the session class) and those the session middleware defines on it
    read-only (the [id] of express-session). *)
Record request := Request {
  query : gmap string value;
  session : gmap string value;
  builtin : gmap string value
}.

(** The same request with other own properties in its session. *)
Definition with_session (r : request) (s : gmap string value) : request :=
  Request (query r) s (builtin r).

(** [request.session[key]]: an own property, else a member the session
    comes with, else [undefined]. *)
Definition session_read (r : request) (key : string) : value :=
  match session r !! key with
  | Some v => v
  | None => prop (builtin r) key
  end.

(** The calls a handler makes on the outside world, in program order.
    [UnhandledRejection] records an error thrown in a promise chain that
    nobody awaits. *)
Inductive event :=
  | StorageSet (key : string) (v : value)
  | StorageGet (key : string)
  | StorageUnset (key : string)
  | Debug (msg : value)
  | ResEnd (body : value)
  | ResWriteHead (status : value) (headers : list (string * string))
  | ResRedirect (url : value)
  | Next
  | SmartAuthorize
  | SmartCompleteAuth
  | ClientRefresh (state : value)
  | UnhandledRejection (e : value).

Record world := World {
  req : request;
  trace : list event
}.

Definition M (A : Type) : Type := world → result A * world.

#[export] Instance M_ret : MRet M := λ A a w, (Ok a, w).
#[export] Instance M_bind : MBind M := λ A B f m w,
  match m w with
  | (Ok a, w') => f a w'
  | (Throw e, w') => (Throw e, w')
  | (Outside, w') => (Outside, w')
  end.

Definition throw {A} (e : value) : M A := λ w, (Throw e, w).
Definition outside {A} : M A := λ w, (Outside, w).

(** The outcome of a pure step, as a step of a handler. *)
Definition lift {A} (x : result A) : M A := λ w, (x, w).

(** [p.then(onFulfilled, onRejected)]: exactly one of the two handlers
    runs; what the chosen handler throws is not caught by the other. *)
Definition then_ {A B} (p : M A) (onFulfilled : A → M B) (onRejected : value → M B) : M B :=
  λ w, match p w with
       | (Ok a, w') => onFulfilled a w'
       | (Throw e, w') => onRejected e w'
       | (Outside, w') => (Outside, w')
       end.

Definition emit (e : event) : M () :=
  λ w, (Ok (), World (req w) (trace w ++ [e])).

(** A promise chain that is started and neither awaited nor returned:
    the caller goes on at once; an error the chain ends with goes
    nowhere. *)
Definition not_awaited {A} (p : M A) : M () :=
  λ w, match p w with
       | (Ok _, w') => (Ok (), w')
       | (Throw e, w') => (Ok (), World (req w') (trace w' ++ [UnhandledRejection e]))
       | (Outside, w') => (Outside, w')
       end.

Definition get_request : M request := λ w, (Ok (req w), w).

Definition put_session (s : gmap string value) : M () :=
  λ w, (Ok (), World (with_session (req w) s) (trace w)).

(** Reading an identifier that no enclosing scope declares. *)
Definition unbound_identifier {A} (name : string) : M A :=
  throw (ReferenceError name).

(** [v.key]: throws on [undefined] and [null], reads the field of an
    object, and is [undefined] on the other values (whose inherited
    properties are not modelled). *)
Definition get_prop (v : value) (key : string) : M value :=
  match v with
  | VUndefined | VNull =>
      throw (TypeError ("Cannot read properties of " +:+ to_string v))
  | VObj fields => mret (assoc fields key)
  | _ => mret VUndefined
  end.

(** [a + b] where one operand is already a string: the right operand is
    evaluated before either is converted, then both are converted and
    concatenated. *)
Definition js_concat (a b : value) : M value :=
  sa ← lift (to_primitive HintDefault a);
  sb ← lift (to_primitive HintDefault b);
  mret (VStr (sa +:+ sb)).

(** ** The storage interface and its session-backed default *)

(** What [cfg.getStorage(request)] returns. Keys are passed as the caller
    has them; the implementation decides how to use them. *)
Record Storage := {
  set : value → value → M value;
  get : value → M value;
  unset : value → M bool
}.

(** The default storage factory: [request.session] is used like an
    object, so a key is converted to a property name. Each access that
    reaches the session is recorded in the trace.

    [set] assigns [request.session[key]]: this writes an own property,
    unless the name belongs to a member the session comes with and is
    not an own property yet, when the effect depends on how that member
    is declared ([__proto__] is a setter, [id] is read-only) and is not
    described.

    [get] reads [request.session[key]], whatever provides it.

    [unset] calls [request.session.hasOwnProperty(key)]: the member is
    looked up on the session like any property and must be the built-in
    function; anything else that is not a function makes the call throw.
    An own property is then deleted. For a name that only belongs to a
    member the session comes with, the answer depends on whether that
    member is inherited or a read-only own one and is not described. *)
Definition getStorage : Storage := {|
  set key v :=
    k ← lift (to_primitive HintString key);
    r ← get_request;
    if bool_decide (is_Some (session r !! k) ∨ builtin r !! k = None) then
      emit (StorageSet k v);;
      put_session (<[k := v]> (session r));;
      mret v
    else outside;
  get key :=
    k ← lift (to_primitive HintString key);
    emit (StorageGet k);;
    r ← get_request;
    mret (session_read r k);
  unset key :=
    r ← get_request;
    match session_read r "hasOwnProperty" with
    | VFun name =>
        if String.eqb name "hasOwnProperty" then
          k ← lift (to_primitive HintString key);
          if bool_decide (is_Some (session r !! k)) then
            emit (StorageUnset k);;
            put_session (delete k (session r));;
            mret true
          else if bool_decide (builtin r !! k = None) then
            emit (StorageUnset k);;
            mret false
          else outside
        else outside
    | _ => throw (TypeError "request.session.hasOwnProperty is not a function")
    end
|}.

(** ** Configuration *)

(** The options given to the module; an option that is not given is
    [VUndefined], respectively [None]. Options that only the OAuth core
    reads (client id, scope, ...) are passed through and not listed. *)
Record options := Options {
  opt_serverUrl : value;
  opt_redirectUri : value;
  opt_getStorage : option Storage
}.

Record config := Config {
  cfg_getStorage : Storage;
  serverUrl : value;
  redirectUri : value
}.

(** [const cfg = { getStorage, ...options }]: the default factory unless
    the options bring their own. *)
Definition make_cfg (o : options) : config := {|
  cfg_getStorage := default getStorage (opt_getStorage o);
  serverUrl := opt_serverUrl o;
  redirectUri := opt_redirectUri o
|}.

(** ** Collaborators *)

(** A collaborator call sees the request, resolves or rejects, and may
    leave the session's own properties changed (it is handed the
    storage). What it does to the response is its own business and is
    summarised by one event. *)
Definition external := request → result value * gmap string value.

Definition call (ev : event) (f : external) : M value :=
  λ w, let '(r, s) := f (req w) in
       (r, World (with_session (req w) s) (trace w ++ [ev])).

(** [require("./lib")]: the two operations of the OAuth core used here. *)
Record OAuthCore := {
  smart_authorize : external;
  smart_completeAuth : external
}.

(** [require("./client").default]: an instance wraps the state it was
    constructed from; [refresh] is its only method used here. *)
Inductive Client := new_Client (state : value).

Definition client_state (c : Client) : value :=
  match c with new_Client state => state end.

(** How a handler of the API object is invoked: as a method of that
    object ([api.refreshAuth(req, res, next)]), or detached from it, the
    function itself being handed to the router
    ([app.get(path, api.refreshAuth)]), when [this] is not the API
    object. *)
Inductive receiver := AsMethod | AsCallback.

(** ** The Express API *)

Section Api.
Context (smart : OAuthCore) (Client_refresh : value → external).
Context (opts : options).

Let cfg : config := make_cfg opts.

Definition debug (msg : value) : M () := emit (Debug msg).
Definition res_end (body : value) : M () := emit (ResEnd body).
Definition res_writeHead (status : value) (headers : list (string * string)) : M () :=
  emit (ResWriteHead status headers).
Definition res_redirect (url : value) : M () := emit (ResRedirect url).
Definition next : M () := emit Next.

(** [async getClient(request)]: resolves with a client or with [null]
    ([None]). *)
Definition getClient : M (option Client) :=
  let storage := cfg_getStorage cfg in
  id ← get storage (VStr "smartId");
  if truthy id then
    state ← get storage id;
    if truthy state then mret (Some (new_Client state))
    else mret None
  else mret None.

(** [authorize(req, res, next)] *)
Definition authorize : M () :=
  r ← get_request;
  let launch := prop (query r) "launch" in
  let iss := prop (query r) "iss" in
  let fhirServiceUrl := prop (query r) "fhirServiceUrl" in
  if truthy (js_or (js_or (js_and launch iss) fhirServiceUrl) (serverUrl cfg)) then
    call SmartAuthorize (smart_authorize smart);; mret ()
  else next.

(** [completeAuth(req, res, next)]. In the rejection handler the
    argument of [res.end] is the identifier [msg]; the only [msg] of
    the function is declared with [let] inside the block of
    [if (error)], so it is not in scope there. *)
Definition completeAuth : M () :=
  r ← get_request;
  let code := prop (query r) "code" in
  let state := prop (query r) "state" in
  let error := prop (query r) "error" in
  let error_description := prop (query r) "error_description" in
  if truthy error then
    tail ← (if truthy error_description
            then js_concat (VStr colon_newline) error_description
            else mret (VStr ""));
    msg ← js_concat error tail;
    debug msg;;
    res_end msg
  else if truthy (js_and code state) then
    then_ (call SmartCompleteAuth (smart_completeAuth smart))
      (λ _, res_redirect (redirectUri cfg))
      (λ error,
         httpCode ← get_prop error "httpCode";
         res_writeHead (js_or httpCode (VNum 500)) [("Content-Type", "text/plain")];;
         msg ← unbound_identifier "msg";
         res_end msg)
  else next.

(** [this.getClient(req)]: the [getClient] above when [this] is the API
    object; detached, [this.getClient] is [undefined] and the call
    throws. *)
Definition this_getClient (this : receiver) : M (option Client) :=
  match this with
  | AsMethod => getClient
  | AsCallback => throw (TypeError "this.getClient is not a function")
  end.

(** [async refreshAuth(req, res, next)]. The promise chain of
    [client.refresh()] is neither awaited nor returned. *)
Definition refreshAuth (this : receiver) : M () :=
  client ← this_getClient this;
  match client with
  | None =>
      res_end (VStr "No smart state found in session. Please re-authorize your app.")
  | Some c =>
      not_awaited
        (then_ (call (ClientRefresh (client_state c)) (Client_refresh (client_state c)))
           (λ _, next)
           (λ error, message ← get_prop error "message"; res_end message))
  end.
End Api.

(** Running a handler on a request, from an empty trace. *)
Definition run {A} (m : M A) (r : request) : result A * world := m (World r []).

(** ** Vocabulary of the properties *)

(** The query string carries the parameter [key], whatever its value. *)
Definition has_param (q : gmap string value) (key : string) : Prop :=
  is_Some (q !! key).

(** The middleware uses the default, session-backed storage. *)
Definition session_backed (o : options) : Prop := opt_getStorage o = None.

(** The session comes with the built-in [hasOwnProperty] and does not
    hide it behind an own property of that name. *)
Definition inherits_hasOwnProperty (r : request) : Prop :=
  session r !! "hasOwnProperty" = None ∧
  builtin r !! "hasOwnProperty" = Some (VFun "hasOwnProperty").

(** The value is a function object. *)
Definition is_function (v : value) : bool :=
  match v with VFun _ => true | _ => false end.

(** The property [key] of the session can be assigned and removed: it
    is an own property already, or the name is not taken by a member the
    session comes with. *)
Definition assignable (r : request) (key : string) : Prop :=
  is_Some (session r !! key) ∨ builtin r !! key = None.

(** [t] occurs inside [s]. *)
Definition contains (s t : string) : Prop := ∃ pre post, s = pre +:+ t +:+ post.

(** The calls of a trace other than the storage accesses. *)
Definition is_storage_access (e : event) : bool :=
  match e with
  | StorageSet _ _ | StorageGet _ | StorageUnset _ => true
  | _ => false
  end.

Definition handler_calls (t : list event) : list event :=
  List.filter (λ e, negb (is_storage_access e)) t.

(** The body that [completeAuth] reports for an error callback: the
    description is converted first (it is part of the right operand),
    then the error. *)
Definition error_report (error error_description : value) : result string :=
  match (if truthy error_description then
           match to_primitive HintDefault error_description with
           | Ok d => Ok (colon_newline +:+ d)
           | Throw e => Throw e
           | Outside => Outside
           end
         else Ok "") with
  | Ok tail =>
      match to_primitive HintDefault error with
      | Ok e => Ok (e +:+ tail)
      | Throw x => Throw x
      | Outside => Outside
      end
  | Throw x => Throw x
  | Outside => Outside
  end.

(** The message of [refreshAuth] when the session holds no client. *)
Definition lost_session_message : string :=
  "No smart state found in session. Please re-authorize your app.".

(** What a plain object inherits from [Object.prototype]: its methods,
    and [__proto__], which reads as the prototype object itself. *)
Definition object_prototype_methods : list (string * value) :=
  [("constructor", VFun "Object");
   ("__defineGetter__", VFun "__defineGetter__");
   ("__defineSetter__", VFun "__defineSetter__");
   ("hasOwnProperty", VFun "hasOwnProperty");
   ("__lookupGetter__", VFun "__lookupGetter__");
   ("__lookupSetter__", VFun "__lookupSetter__");
   ("isPrototypeOf", VFun "isPrototypeOf");
   ("propertyIsEnumerable", VFun "propertyIsEnumerable");
   ("toString", VFun "toString");
   ("valueOf", VFun "valueOf");
   ("toLocaleString", VFun "toLocaleString")].

Definition object_prototype : gmap string value :=
  <["__proto__" := VObj object_prototype_methods]> (list_to_map object_prototype_methods).

(** A request whose session is a plain object with the given own
    properties. *)
Definition plain_request (q s : gmap string value) : request :=
  Request q s object_prototype.

(** Collaborators and requests used in the examples. *)
Definition core_resolving : OAuthCore := {|
  smart_authorize r := (Ok VUndefined, session r);
  smart_completeAuth r := (Ok VUndefined, session r)
|}.

Definition core_rejecting (error : value) : OAuthCore := {|
  smart_authorize r := (Ok VUndefined, session r);
  smart_completeAuth r := (Throw error, session r)
|}.

Definition refresh_resolving : value → external :=
  λ _ r, (Ok VUndefined, session r).

Definition plain_options : options :=
  Options VUndefined (VStr "/app") None.

Definition blob_example : value :=
  VObj [("serverUrl", VStr "https://fhir.example/r4");
        ("access_token", VStr "tok"); ("expires_in", VNum 3600)].

(** Example requests. *)
Definition req_code_state : request :=
  plain_request {["code" := VStr "abc"; "state" := VStr "xyz"]} ∅.

Definition req_empty_fhirServiceUrl : request :=
  plain_request {["fhirServiceUrl" := VStr ""]} ∅.

Definition req_empty_error : request :=
  plain_request {["error" := VStr ""; "code" := VStr "abc"; "state" := VStr "xyz"]} ∅.

Definition req_denied : request :=
  plain_request {["error" := VStr "access_denied";
                  "error_description" := VStr "user cancelled";
                  "code" := VStr "abc"; "state" := VStr "xyz"]} ∅.

Definition req_empty_code : request :=
  plain_request {["code" := VStr ""; "state" := VStr "xyz"]} ∅.

Definition req_code_only : request :=
  plain_request {["code" := VStr "abc"]} ∅.

Definition req_no_pointer : request := plain_request ∅ ∅.

Definition req_dangling : request :=
  plain_request ∅ {["smartId" := VStr "k1"]}.

Definition req_authorized : request :=
  plain_request ∅ {["smartId" := VStr "k1"; "k1" := blob_example]}.

Definition req_empty_pointer : request :=
  plain_request ∅ {["smartId" := VStr ""; "" := blob_example]}.

Definition unauthorized_401 : value :=
  VObj [("httpCode", VNum 401); ("message", VStr "Unauthorized")].


(** A storage backend that is out of reach: every operation rejects. *)
Definition failing_storage (e : value) : Storage := {|
  set _ _ := throw e;
  get _ := throw e;
  unset _ := throw e
|}.

Definition storage_down : value :=
  VObj [("message", VStr "storage unavailable")].

Definition options_failing_storage : options :=
  Options VUndefined (VStr "/app") (Some (failing_storage storage_down)).

Definition options_with_serverUrl : options :=
  Options (VStr "https://fhir.example/r4") (VStr "/app") None.

Definition req_one_key : request :=
  plain_request ∅ {["1" := VStr "one"]}.

Definition req_self_pointer : request :=
  plain_request ∅ {["smartId" := VStr "smartId"]}.


Definition req_launch_only : request :=
  plain_request {["launch" := VStr "xyz"]} ∅.

(** The pointer names a method every plain object inherits. *)
Definition req_pointer_toString : request :=
  plain_request ∅ {["smartId" := VStr "toString"]}.

(** The pointer is an object with a [toString] member of its own, as
    the query string [?id[toString]=x] would parse to. *)
Definition unprintable : value := VObj [("toString", VStr "x")].


Definition req_unprintable_error : request :=
  plain_request {["error" := unprintable]} ∅.

(** The session stores a value under the name [hasOwnProperty]. *)
Definition req_shadowed_hasOwnProperty : request :=
  plain_request ∅ {["hasOwnProperty" := VStr "x"; "k1" := blob_example]}.



(** ** Evaluation lemmas *)

(** An event that differs from every element of an explicit trace does
    not occur in it. *)
Ltac not_in_trace :=
  let H := fresh "Hin" in
  intros H;
  repeat (apply elem_of_cons in H as [H|H]; [discriminate H|]);
  by apply elem_of_nil in H.

(** An implication from the presence of an event that the explicit
    trace does not have. *)
Ltac absent_event :=
  let Hev := fresh "Hev" in
  first [intros [? Hev] | intros Hev]; exfalso; revert Hev; not_in_trace.

(** An equivalence both sides of which fail: the event is not in the
    explicit trace and the condition contradicts the case at hand. *)
Ltac no_event :=
  let Hev := fresh "Hev" in
  split;
  [ first [intros [? Hev] | intros Hev]; exfalso; revert Hev; not_in_trace
  | intros; exfalso; intuition discriminate ].

Lemma truthy_js_and a b : truthy (js_and a b) = truthy a && truthy b.
Proof. unfold js_and. by destruct (truthy a) eqn:Ha; rewrite ?Ha. Qed.

Lemma truthy_js_or a b : truthy (js_or a b) = truthy a || truthy b.
Proof. unfold js_or. by destruct (truthy a) eqn:Ha; rewrite ?Ha. Qed.

Lemma prop_absent (obj : gmap string value) key :
  obj !! key = None → prop obj key = VUndefined.
Proof. unfold prop. by intros ->. Qed.

Lemma prop_present (obj : gmap string value) key v :
  obj !! key = Some v → prop obj key = v.
Proof. unfold prop. by intros ->. Qed.

Lemma session_read_own r key v :
  session r !! key = Some v → session_read r key = v.
Proof. unfold session_read. by intros ->. Qed.

Lemma session_read_inherited r key :
  session r !! key = None → session_read r key = prop (builtin r) key.
Proof. unfold session_read. by intros ->. Qed.

Lemma session_read_missing r key :
  session r !! key = None → builtin r !! key = None →
  session_read r key = VUndefined.
Proof. intros Ho Hi. by rewrite session_read_inherited, prop_absent. Qed.

Lemma contains_prefix s t : contains (s +:+ t) s.
Proof. exists "", t. reflexivity. Qed.

Lemma string_app_empty_r (s : string) : s +:+ "" = s.
Proof.
  induction s as [|c s IH]; [done|].
  change (String c (s +:+ "") = String c s). by rewrite IH.
Qed.

Lemma string_app_assoc (a b c : string) : (a +:+ b) +:+ c = a +:+ (b +:+ c).
Proof.
  induction a as [|x a IH]; [done|].
  change (String x ((a +:+ b) +:+ c) = String x (a +:+ (b +:+ c))). by rewrite IH.
Qed.

Lemma contains_suffix s t : contains (s +:+ t) t.
Proof. exists s, "". by rewrite string_app_empty_r. Qed.

Lemma contains_middle a b t : contains (a +:+ (b +:+ t)) t.
Proof. exists (a +:+ b), "". by rewrite string_app_empty_r, string_app_assoc. Qed.

(** *** Conversions *)

Lemma to_primitive_string h s : to_primitive h (VStr s) = Ok s.
Proof. by destruct h. Qed.

(** No number prints as ["smartId"]: the digits are put in front of a
    string that does not start with the letter. *)
Lemma pretty_N_go_head x s :
  (∀ t, s ≠ String "s" t) → ∀ t, pretty_N_go x s ≠ String "s" t.
Proof.
  revert s. induction (N.lt_wf_0 x) as [x _ IH]. intros s Hs.
  destruct (decide (x = 0)%N) as [->|Hx]; [by rewrite pretty_N_go_0|].
  rewrite pretty_N_go_step by lia. apply IH; [apply N.div_lt; lia|].
  intros t. unfold pretty_N_char. by repeat case_match.
Qed.

Lemma pretty_Z_not_smartId (n : Z) : pretty n ≠ "smartId".
Proof.
  destruct n as [|p|p]; [done| |done].
  unfold pretty, pretty_Z, pretty, pretty_positive, pretty, pretty_N.
  case_decide; [done|]. by apply pretty_N_go_head.
Qed.

Lemma comma_not_in_smartId a b : a +:+ "," +:+ b ≠ "smartId".
Proof.
  intros H.
  do 8 (destruct a as [|? a];
        unfold String.append in H; fold String.append in H;
        [discriminate H|]; try (injection H as _ H)).
  discriminate H.
Qed.

(** A value that prints as ["smartId"] converts to that property name:
    it is the string itself, or arrays around it. *)
Lemma key_of_smartId v :
  to_string v = "smartId" → to_primitive HintString v = Ok "smartId".
Proof.
  revert v. fix IH 1. intros v.
  destruct v as [| |b|n|s|items|fields|f]; try discriminate.
  - by destruct b.
  - intros H. by destruct (pretty_Z_not_smartId n).
  - intros H. cbn in H. by subst.
  - destruct items as [|x [|y rest]].
    + discriminate.
    + intros H.
      assert (to_string x = "smartId") as Hx.
      { destruct x; try exact H; discriminate H. }
      specialize (IH x Hx).
      change (match (match x with
                     | VUndefined | VNull => Ok ""
                     | _ => to_primitive HintString x
                     end) with
              | Ok sx => Ok sx
              | Throw e => Throw e
              | Outside => Outside
              end = Ok "smartId").
      destruct x; try discriminate Hx; by rewrite IH.
    + intros H. exfalso. revert H. apply comma_not_in_smartId.
Qed.

(** *** The default storage, operation by operation *)

Lemma mbind_run {A B} (m : M A) (f : A → M B) w :
  (m ≫= f) w =
    match m w with
    | (Ok a, w') => f a w'
    | (Throw e, w') => (Throw e, w')
    | (Outside, w') => (Outside, w')
    end.
Proof. reflexivity. Qed.


Lemma get_from key w :
  get getStorage key w =
    match to_primitive HintString key with
    | Ok k => (Ok (session_read (req w) k), World (req w) (trace w ++ [StorageGet k]))
    | Throw e => (Throw e, w)
    | Outside => (Outside, w)
    end.
Proof.
  cbn. unfold mbind, M_bind, lift. by destruct (to_primitive HintString key).
Qed.

Lemma set_from key v w :
  set getStorage key v w =
    match to_primitive HintString key with
    | Ok k =>
        if bool_decide (is_Some (session (req w) !! k) ∨ builtin (req w) !! k = None)
        then (Ok v, World (with_session (req w) (<[k := v]> (session (req w))))
                      (trace w ++ [StorageSet k v]))
        else (Outside, w)
    | Throw e => (Throw e, w)
    | Outside => (Outside, w)
    end.
Proof.
  cbn. unfold mbind, M_bind, lift, get_request.
  destruct (to_primitive HintString key); [|done..].
  by destruct (bool_decide _).
Qed.

Lemma unset_from key w :
  inherits_hasOwnProperty (req w) →
  unset getStorage key w =
    match to_primitive HintString key with
    | Ok k =>
        if bool_decide (is_Some (session (req w) !! k)) then
          (Ok true, World (with_session (req w) (delete k (session (req w))))
                      (trace w ++ [StorageUnset k]))
        else if bool_decide (builtin (req w) !! k = None) then
          (Ok false, World (req w) (trace w ++ [StorageUnset k]))
        else (Outside, w)
    | Throw e => (Throw e, w)
    | Outside => (Outside, w)
    end.
Proof.
  intros [Hown Hinh]. cbn. unfold mbind, M_bind, get_request.
  rewrite session_read_inherited, (prop_present _ _ _ Hinh) by done. cbn.
  unfold mbind, M_bind, lift. destruct (to_primitive HintString key); [|done..].
  cbn. destruct (bool_decide (is_Some _)); [done|]. by destruct (bool_decide _).
Qed.

(** With the session-backed storage, [getClient] reads the pointer, then
    (only for a truthy pointer) the property it names, and leaves the
    request as it found it. *)
Lemma getClient_from opts w :
  session_backed opts →
  getClient opts w =
    let id := session_read (req w) "smartId" in
    if truthy id then
      match to_primitive HintString id with
      | Ok k =>
          let state := session_read (req w) k in
          (Ok (if truthy state then Some (new_Client state) else None),
           World (req w) (trace w ++ [StorageGet "smartId"; StorageGet k]))
      | Throw e => (Throw e, World (req w) (trace w ++ [StorageGet "smartId"]))
      | Outside => (Outside, World (req w) (trace w ++ [StorageGet "smartId"]))
      end
    else (Ok None, World (req w) (trace w ++ [StorageGet "smartId"])).
Proof.
  unfold session_backed, getClient, make_cfg. intros ->. cbn [default from_option cfg_getStorage].
  rewrite mbind_run, get_from. cbn [to_primitive to_string req trace].
  destruct (truthy (session_read (req w) "smartId")); [|done].
  rewrite mbind_run, get_from. cbn [req trace].
  destruct (to_primitive HintString (session_read (req w) "smartId")) as [k|e|]; [|done..].
  rewrite <- app_assoc. cbn [app].
  by destruct (truthy (session_read (req w) k)).
Qed.

Lemma getClient_run opts r :
  session_backed opts →
  run (getClient opts) r =
    let id := session_read r "smartId" in
    if truthy id then
      match to_primitive HintString id with
      | Ok k =>
          let state := session_read r k in
          (Ok (if truthy state then Some (new_Client state) else None),
           World r [StorageGet "smartId"; StorageGet k])
      | Throw e => (Throw e, World r [StorageGet "smartId"])
      | Outside => (Outside, World r [StorageGet "smartId"])
      end
    else (Ok None, World r [StorageGet "smartId"]).
Proof. intros Hs. unfold run. by rewrite getClient_from. Qed.

(** *** The paths of the handlers *)

Lemma completeAuth_error_path smart opts r :
  truthy (prop (query r) "error") = true →
  run (completeAuth smart opts) r =
    match error_report (prop (query r) "error") (prop (query r) "error_description") with
    | Ok body => (Ok (), World r [Debug (VStr body); ResEnd (VStr body)])
    | Throw e => (Throw e, World r [])
    | Outside => (Outside, World r [])
    end.
Proof.
  intros He. unfold run, completeAuth, error_report, js_concat.
  unfold mbind, M_bind, lift, get_request. cbn [req]. rewrite He.
  destruct (truthy (prop (query r) "error_description"));
    [destruct (to_primitive HintDefault (prop (query r) "error_description")) as [d|x|]|];
    destruct (to_primitive HintDefault (prop (query r) "error")) as [e|x'|];
    reflexivity.
Qed.

Lemma completeAuth_exchange_path smart opts r :
  truthy (prop (query r) "error") = false →
  truthy (prop (query r) "code") = true →
  truthy (prop (query r) "state") = true →
  run (completeAuth smart opts) r =
    match smart_completeAuth smart r with
    | (Ok _, s) =>
        (Ok (), World (with_session r s)
                  [SmartCompleteAuth; ResRedirect (opt_redirectUri opts)])
    | (Throw error, s) =>
        match error with
        | VUndefined | VNull =>
            (Throw (TypeError ("Cannot read properties of " +:+ to_string error)),
             World (with_session r s) [SmartCompleteAuth])
        | _ =>
            (Throw (ReferenceError "msg"),
             World (with_session r s)
               [SmartCompleteAuth;
                ResWriteHead
                  (js_or (match error with VObj fields => assoc fields "httpCode"
                                         | _ => VUndefined end) (VNum 500))
                  [("Content-Type", "text/plain")]])
        end
    | (Outside, s) => (Outside, World (with_session r s) [SmartCompleteAuth])
    end.
Proof.
  intros He Hc Hs. unfold run, completeAuth.
  unfold mbind, M_bind, get_request. cbn. rewrite He, truthy_js_and, Hc, Hs. cbn.
  unfold then_, call. cbn. destruct (smart_completeAuth smart r) as [[v|e|] s]; [done| |done].
  by destruct e.
Qed.

Lemma completeAuth_next_path smart opts r :
  truthy (prop (query r) "error") = false →
  truthy (prop (query r) "code") && truthy (prop (query r) "state") = false →
  run (completeAuth smart opts) r = (Ok (), World r [Next]).
Proof.
  intros He Hcs. unfold run, completeAuth.
  unfold mbind, M_bind, get_request. cbn. by rewrite He, truthy_js_and, Hcs.
Qed.

Lemma authorize_run smart opts r :
  run (authorize smart opts) r =
    if truthy (prop (query r) "launch") && truthy (prop (query r) "iss")
       || truthy (prop (query r) "fhirServiceUrl")
       || truthy (opt_serverUrl opts)
    then
      let '(res, s) := smart_authorize smart r in
      (match res with Ok _ => Ok () | Throw e => Throw e | Outside => Outside end,
       World (with_session r s) [SmartAuthorize])
    else (Ok (), World r [Next]).
Proof.
  unfold run, authorize. unfold mbind, M_bind, get_request. cbn.
  rewrite !truthy_js_or, truthy_js_and.
  destruct (_ || _); [|done].
  unfold call. cbn. by destruct (smart_authorize smart r) as [[v|e|] s].
Qed.

(** [refreshAuth] as a method, once [getClient] has answered. *)
Lemma refreshAuth_method_run refresh opts r :
  run (refreshAuth refresh opts AsMethod) r =
    match run (getClient opts) r with
    | (Ok None, w) =>
        (Ok (), World (req w) (trace w ++ [ResEnd (VStr lost_session_message)]))
    | (Ok (Some c), w) =>
        match refresh (client_state c) (req w) with
        | (Ok _, s) =>
            (Ok (), World (with_session (req w) s)
                      (trace w ++ [ClientRefresh (client_state c); Next]))
        | (Throw error, s) =>
            match error with
            | VUndefined | VNull =>
                (Ok (), World (with_session (req w) s)
                          (trace w ++ [ClientRefresh (client_state c);
                                       UnhandledRejection
                                         (TypeError ("Cannot read properties of " +:+
                                                     to_string error))]))
            | _ =>
                (Ok (), World (with_session (req w) s)
                          (trace w ++ [ClientRefresh (client_state c);
                                       ResEnd (match error with
                                               | VObj fields => assoc fields "message"
                                               | _ => VUndefined
                                               end)]))
            end
        | (Outside, s) =>
            (Outside, World (with_session (req w) s)
                        (trace w ++ [ClientRefresh (client_state c)]))
        end
    | (Throw e, w) => (Throw e, w)
    | (Outside, w) => (Outside, w)
    end.
Proof.
  unfold run, refreshAuth, this_getClient. rewrite mbind_run.
  destruct (getClient opts (World r [])) as [[[c|]|e|] w]; [|done..].
  unfold not_awaited, then_, call. cbn [req trace].
  destruct (refresh (client_state c) (req w)) as [[v|e|] s];
    [|destruct e|];
    unfold get_prop, mbind, M_bind, throw, mret, M_ret, res_end, next, emit;
    cbn; rewrite <- ?app_assoc; reflexivity.
Qed.

(** ** The session pointer and [getClient] *)

(** C4, where the code departs from the claim: in a session that is a
    plain object and whose pointer is ["toString"], nothing is stored
    under the key the pointer names, yet [getClient] does not resolve
    with [null]: the read of [request.session["toString"]] finds the
    inherited method and a client is built from that function. *)
Theorem getClient_inherited_member_as_state :
  session req_pointer_toString !! "toString" = None ∧
  run (getClient plain_options) req_pointer_toString =
    (Ok (Some (new_Client (VFun "toString"))),
     World req_pointer_toString [StorageGet "smartId"; StorageGet "toString"]).
Proof. split; reflexivity. Qed.



(** C9: two calls of [getClient] in succession, with nothing written in
    between, resolve with equal results (both [null], or clients of the
    same stored state), and neither changes the request. *)
Theorem getClient_twice opts w :
  session_backed opts →
  (getClient opts w).1 = (getClient opts (getClient opts w).2).1 ∧
  req (getClient opts w).2 = req w ∧
  req (getClient opts (getClient opts w).2).2 = req w.
Proof.
  intros Hs. rewrite (getClient_from opts w) by done. cbn zeta.
  destruct (truthy (session_read (req w) "smartId")) eqn:Hid.
  - destruct (to_primitive HintString (session_read (req w) "smartId")) as [k|e|] eqn:Hk;
      cbn; rewrite getClient_from by done; cbn; by rewrite Hid, Hk.
  - cbn. rewrite getClient_from by done. cbn. by rewrite Hid.
Qed.

Lemma getClient_twice_witness :
  let w := World req_authorized [] in
  (getClient plain_options w).1 =
    (getClient plain_options (getClient plain_options w).2).1 ∧
  req (getClient plain_options w).2 = req w ∧
  req (getClient plain_options (getClient plain_options w).2).2 = req w.
Proof. apply (getClient_twice plain_options (World req_authorized [])). reflexivity. Defined.

(** C10: when the [smartId] key is present with a falsy value,
    [getClient] resolves with [null] after the single read of the
    pointer: no key named by that value is looked up. *)
Theorem getClient_falsy_pointer opts r v :
  session_backed opts →
  session r !! "smartId" = Some v →
  truthy v = false →
  run (getClient opts) r = (Ok None, World r [StorageGet "smartId"]).
Proof.
  intros Hs Hv Hf. rewrite getClient_run by done.
  rewrite (session_read_own _ _ _ Hv). cbn. by rewrite Hf.
Qed.

Lemma getClient_falsy_pointer_witness :
  run (getClient plain_options) req_empty_pointer =
    (Ok None, World req_empty_pointer [StorageGet "smartId"]).
Proof.
  apply (getClient_falsy_pointer plain_options req_empty_pointer (VStr "")); reflexivity.
Defined.

(** ** [authorize] *)

(** C2, as stated, fails on a parameter that is present but empty: for
    the query [?fhirServiceUrl=] and no configured server URL the query
    has [fhirServiceUrl], yet [authorize] calls [next] and does not
    delegate to the OAuth core. *)
Lemma authorize_empty_fhirServiceUrl_calls_next :
  has_param (query req_empty_fhirServiceUrl) "fhirServiceUrl" ∧
  run (authorize core_resolving plain_options) req_empty_fhirServiceUrl =
    (Ok (), World req_empty_fhirServiceUrl [Next]).
Proof. split; [by eexists | reflexivity]. Qed.

(** C2, amended: [authorize] delegates to the OAuth core exactly when
    [launch] and [iss] are both truthy (present and not empty), or
    [fhirServiceUrl] is truthy, or the configured [serverUrl] is truthy;
    in every other case its only call is [next], so it writes no
    response. *)
Theorem authorize_decision smart opts r :
  trace (run (authorize smart opts) r).2 =
    if truthy (prop (query r) "launch") && truthy (prop (query r) "iss")
       || truthy (prop (query r) "fhirServiceUrl")
       || truthy (opt_serverUrl opts)
    then [SmartAuthorize]
    else [Next].
Proof.
  rewrite authorize_run. destruct (_ || _); [|done].
  by destruct (smart_authorize smart r).
Qed.

(** ** [completeAuth] *)

(** C1, where the code departs from the claim: for the query
    [{code: "abc", state: "xyz"}] and an exchange rejecting with HTTP
    status 401, [completeAuth] writes the head (status 401, content type
    text/plain) and then throws a ReferenceError on the unbound [msg]:
    [res.end] is never called, so no error body is written and the
    response is never ended. *)
Theorem completeAuth_rejected_exchange_401 :
  run (completeAuth (core_rejecting unauthorized_401) plain_options) req_code_state =
    (Throw (ReferenceError "msg"),
     World req_code_state
       [SmartCompleteAuth;
        ResWriteHead (VNum 401) [("Content-Type", "text/plain")]]).
Proof. reflexivity. Qed.

(** The same holds for every rejected exchange: whatever the failure
    is, the rejection handler never reaches [res.end]. *)
Lemma completeAuth_rejected_exchange_no_body smart opts r e s body :
  truthy (prop (query r) "error") = false →
  truthy (prop (query r) "code") = true →
  truthy (prop (query r) "state") = true →
  smart_completeAuth smart r = (Throw e, s) →
  (∃ thrown, (run (completeAuth smart opts) r).1 = Throw thrown) ∧
  ResEnd body ∉ trace (run (completeAuth smart opts) r).2.
Proof.
  intros He Hc Hs Hx. rewrite completeAuth_exchange_path by done. rewrite Hx.
  destruct e; cbn; (split; [by eexists|]); not_in_trace.
Qed.

(** C3, as stated, fails on an error parameter that is present but
    empty: for [?error=&code=abc&state=xyz] the query has [error], yet
    the token exchange is attempted and (when it succeeds) the browser is
    redirected; no error is reported. *)
Lemma completeAuth_empty_error_exchanges :
  has_param (query req_empty_error) "error" ∧
  run (completeAuth core_resolving plain_options) req_empty_error =
    (Ok (), World req_empty_error [SmartCompleteAuth; ResRedirect (VStr "/app")]).
Proof. split; [by eexists | reflexivity]. Qed.

(** C3, amended: when the [error] parameter is truthy (present and not
    empty) and converts to a string [e], and a truthy
    [error_description] converts to a string [d] (strings convert to
    themselves; an object with a [toString] member of its own does not
    convert), [completeAuth] logs and ends the response with one body:
    [e], followed for a truthy description by a colon, a line feed and
    [d]. So the body contains the error string and, when there is one,
    the description string. Nothing else happens: no token exchange, no
    call of [next], whatever [code] and [state] are. *)
Theorem completeAuth_error_precedence smart opts r e d :
  truthy (prop (query r) "error") = true →
  to_primitive HintDefault (prop (query r) "error") = Ok e →
  (truthy (prop (query r) "error_description") = true →
   to_primitive HintDefault (prop (query r) "error_description") = Ok d) →
  let body := e +:+ (if truthy (prop (query r) "error_description")
                     then colon_newline +:+ d else "") in
  run (completeAuth smart opts) r =
    (Ok (), World r [Debug (VStr body); ResEnd (VStr body)]) ∧
  contains body e ∧
  (truthy (prop (query r) "error_description") = true → contains body d) ∧
  (∀ s, query r !! "error" = Some (VStr s) → e = s) ∧
  (∀ s, query r !! "error_description" = Some (VStr s) → contains body s).
Proof.
  intros He Hce Hcd body. split; [|split; [|split; [|split]]].
  - rewrite completeAuth_error_path by done. unfold error_report, body. rewrite Hce.
    destruct (truthy (prop (query r) "error_description")); [|done].
    by rewrite Hcd.
  - apply contains_prefix.
  - unfold body. intros ->. apply contains_middle.
  - intros s Hq. rewrite (prop_present _ _ _ Hq), to_primitive_string in Hce. congruence.
  - intros s Hq. unfold body. rewrite (prop_present _ _ _ Hq) in Hcd |- *.
    destruct (truthy (VStr s)) eqn:Ht.
    + rewrite to_primitive_string in Hcd. specialize (Hcd eq_refl).
      injection Hcd as ->. apply contains_middle.
    + cbn in Ht. apply negb_false_iff, String.eqb_eq in Ht as ->.
      exists (e +:+ ""), "". by rewrite !string_app_empty_r.
Qed.

Lemma completeAuth_error_precedence_witness :
  let body := "access_denied" +:+ (if truthy (prop (query req_denied) "error_description")
                                   then colon_newline +:+ "user cancelled" else "") in
  run (completeAuth core_resolving plain_options) req_denied =
    (Ok (), World req_denied [Debug (VStr body); ResEnd (VStr body)]) ∧
  contains body "access_denied" ∧
  (truthy (prop (query req_denied) "error_description") = true →
   contains body "user cancelled") ∧
  (∀ s, query req_denied !! "error" = Some (VStr s) → "access_denied" = s) ∧
  (∀ s, query req_denied !! "error_description" = Some (VStr s) → contains body s).
Proof.
  apply (completeAuth_error_precedence core_resolving plain_options req_denied
           "access_denied" "user cancelled"); [reflexivity | reflexivity |].
  intros _. reflexivity.
Defined.

(** C6, as stated, fails on a [code] that is present but empty: for
    [?code=&state=xyz] the query has both [code] and [state] and no
    [error], the exchange would succeed, yet [completeAuth] calls [next]
    and issues no redirect. *)
Lemma completeAuth_empty_code_calls_next :
  has_param (query req_empty_code) "code" ∧
  has_param (query req_empty_code) "state" ∧
  ¬ has_param (query req_empty_code) "error" ∧
  (smart_completeAuth core_resolving req_empty_code).1 = Ok VUndefined ∧
  run (completeAuth core_resolving plain_options) req_empty_code =
    (Ok (), World req_empty_code [Next]).
Proof.
  split; [by eexists|]. split; [by eexists|]. split; [|done].
  intros [v Hv]. by vm_compute in Hv.
Qed.

(** C6, amended: when [code] and [state] are both truthy (present and
    not empty) and [error] is not, and the delegated code exchange
    succeeds, [completeAuth] redirects to the configured [redirectUri];
    the exchange and the redirect are its only calls, so [next] is not
    called. *)
Theorem completeAuth_success_redirects smart opts r v s :
  truthy (prop (query r) "error") = false →
  truthy (prop (query r) "code") = true →
  truthy (prop (query r) "state") = true →
  smart_completeAuth smart r = (Ok v, s) →
  run (completeAuth smart opts) r =
    (Ok (), World (with_session r s)
              [SmartCompleteAuth; ResRedirect (opt_redirectUri opts)]).
Proof.
  intros He Hc Hs Hx. rewrite completeAuth_exchange_path by done. by rewrite Hx.
Qed.

Lemma completeAuth_success_redirects_witness :
  run (completeAuth core_resolving plain_options) req_code_state =
    (Ok (), World (with_session req_code_state ∅)
              [SmartCompleteAuth; ResRedirect (opt_redirectUri plain_options)]).
Proof.
  apply (completeAuth_success_redirects core_resolving plain_options req_code_state
           VUndefined ∅); reflexivity.
Defined.

(** C7: when the query has no [error] parameter and lacks [code] or
    [state], [completeAuth] calls [next] and nothing else: no response is
    written and no token exchange is attempted. *)
Theorem completeAuth_not_a_callback smart opts r :
  ¬ has_param (query r) "error" →
  ¬ (has_param (query r) "code" ∧ has_param (query r) "state") →
  run (completeAuth smart opts) r = (Ok (), World r [Next]).
Proof.
  unfold has_param. intros He Hcs. apply completeAuth_next_path.
  - destruct (query r !! "error") eqn:Hq; [by destruct He; eexists|].
    by rewrite (prop_absent _ _ Hq).
  - destruct (query r !! "code") eqn:Hc.
    + destruct (query r !! "state") eqn:Hs; [by destruct Hcs; split; eexists|].
      rewrite (prop_absent _ _ Hs). apply andb_false_r.
    + by rewrite (prop_absent _ _ Hc).
Qed.

Lemma completeAuth_not_a_callback_witness :
  run (completeAuth core_resolving plain_options) req_code_only =
    (Ok (), World req_code_only [Next]).
Proof.
  apply (completeAuth_not_a_callback core_resolving plain_options req_code_only).
  - intros [v Hv]. vm_compute in Hv. discriminate Hv.
  - intros [_ [v Hv]]. vm_compute in Hv. discriminate Hv.
Defined.

(** ** [refreshAuth] *)

(** C8, where the code departs from the claim: [refreshAuth] reaches
    [getClient] through [this]. Handed to the router as a route handler
    it is called detached from the API object, [this.getClient] is not a
    function, and the handler rejects with a TypeError before anything
    else happens: whatever the session holds, no lost-session message is
    sent and nothing is called. *)
Theorem refreshAuth_detached_rejects refresh opts r :
  ∃ message,
    run (refreshAuth refresh opts AsCallback) r = (Throw (TypeError message), World r []).
Proof. by eexists. Qed.

(** ** The session-backed storage *)



(** [set(key, v)] on an assignable property does not disturb what [get]
    gives for a key with a different property name. *)
Theorem storage_get_after_set_other key key' k k' v r :
  to_primitive HintString key = Ok k →
  to_primitive HintString key' = Ok k' →
  k ≠ k' →
  assignable r k →
  (run (set getStorage key v;; get getStorage key') r).1 =
    (run (get getStorage key') r).1.
Proof.
  intros Hk Hk' Hne Ha. unfold run. rewrite mbind_run, set_from, Hk.
  rewrite bool_decide_eq_true_2 by exact Ha.
  rewrite !get_from, Hk'. cbn. unfold session_read. cbn.
  by rewrite lookup_insert_ne.
Qed.

Lemma storage_get_after_set_other_witness :
  (run (set getStorage (VStr "smartId") (VStr "k1");; get getStorage (VStr "1")) req_one_key).1 =
    (run (get getStorage (VStr "1")) req_one_key).1.
Proof.
  apply (storage_get_after_set_other (VStr "smartId") (VStr "1") "smartId" "1"
           (VStr "k1") req_one_key); [reflexivity | reflexivity | | right; reflexivity].
  intros H. discriminate H.
Defined.

(** A second [set] on the same assignable property overwrites the
    first: the session ends up as if only the second had been made. *)
Theorem storage_set_overwrites key key' k v v' r :
  to_primitive HintString key = Ok k →
  to_primitive HintString key' = Ok k →
  assignable r k →
  req (run (set getStorage key v;; set getStorage key' v') r).2 =
    req (run (set getStorage key' v') r).2.
Proof.
  intros Hk Hk' Ha. unfold run. rewrite mbind_run, set_from, Hk.
  rewrite bool_decide_eq_true_2 by exact Ha. cbv iota beta.
  rewrite !set_from, Hk'. cbn [req trace with_session session builtin].
  rewrite bool_decide_eq_true_2 by (left; rewrite lookup_insert_eq; by eexists).
  rewrite bool_decide_eq_true_2 by exact Ha.
  cbn. unfold with_session. cbn. by rewrite insert_insert_eq.
Qed.

Lemma storage_set_overwrites_witness :
  req (run (set getStorage (VStr "k1") (VStr "old");;
            set getStorage (VStr "k1") blob_example) req_dangling).2 =
    req (run (set getStorage (VStr "k1") blob_example) req_dangling).2.
Proof.
  apply (storage_set_overwrites (VStr "k1") (VStr "k1") "k1" (VStr "old") blob_example
           req_dangling); [reflexivity | reflexivity | right; reflexivity].
Defined.

(** On a session that comes with the built-in [hasOwnProperty], and
    for a name that no member the session comes with bears, [unset(key)]
    resolves with [true] exactly when the session has the own property;
    either way a following [get] of that key resolves with [undefined]
    and a second [unset] resolves with [false]. *)
Theorem storage_unset_reports_presence key k r :
  inherits_hasOwnProperty r →
  to_primitive HintString key = Ok k →
  builtin r !! k = None →
  (run (unset getStorage key) r).1 = Ok (bool_decide (is_Some (session r !! k))) ∧
  (run (unset getStorage key;; get getStorage key) r).1 = Ok VUndefined ∧
  (run (unset getStorage key;; unset getStorage key) r).1 = Ok false.
Proof.
  intros Hh Hk Hb. unfold run. rewrite !mbind_run, unset_from by done.
  rewrite Hk. cbn [req trace].
  rewrite (bool_decide_eq_true_2 (builtin r !! k = None)) by done.
  destruct (bool_decide (is_Some (session r !! k))) eqn:Ho; cbv iota beta.
  - split; [done|]. rewrite get_from, unset_from, Hk.
    2:{ destruct Hh as [Hown Hinh]. split; [|done]. cbn.
        destruct (decide (k = "hasOwnProperty")) as [->|Hne];
          [apply lookup_delete_eq | by rewrite lookup_delete_ne]. }
    cbn. unfold session_read. cbn. rewrite lookup_delete_eq.
    rewrite (prop_absent _ _ Hb). split; [done|].
    rewrite bool_decide_eq_false_2 by (by intros [? ?]).
    by rewrite bool_decide_eq_true_2.
  - split; [done|]. rewrite get_from, unset_from, Hk by done. cbn. rewrite Ho.
    rewrite (bool_decide_eq_true_2 (builtin r !! k = None)) by done.
    apply bool_decide_eq_false in Ho. unfold session_read.
    destruct (session r !! k) eqn:Hl; [by destruct Ho; eexists|].
    by rewrite (prop_absent _ _ Hb).
Qed.

Lemma storage_unset_reports_presence_witness :
  (run (unset getStorage (VStr "k1")) req_authorized).1 =
    Ok (bool_decide (is_Some (session req_authorized !! "k1"))) ∧
  (run (unset getStorage (VStr "k1");; get getStorage (VStr "k1")) req_authorized).1 =
    Ok VUndefined ∧
  (run (unset getStorage (VStr "k1");; unset getStorage (VStr "k1")) req_authorized).1 =
    Ok false.
Proof.
  apply (storage_unset_reports_presence (VStr "k1") "k1" req_authorized);
    [split; reflexivity | reflexivity | reflexivity].
Defined.

(** On such a session [unset(key)] of a removable property does not
    disturb what [get] gives for a key with a different property name. *)
Theorem storage_get_after_unset_other key key' k k' r :
  inherits_hasOwnProperty r →
  to_primitive HintString key = Ok k →
  to_primitive HintString key' = Ok k' →
  k ≠ k' →
  assignable r k →
  (run (unset getStorage key;; get getStorage key') r).1 =
    (run (get getStorage key') r).1.
Proof.
  intros Hh Hk Hk' Hne Ha. unfold run. rewrite mbind_run, unset_from by done.
  rewrite Hk. cbn [req trace].
  destruct (bool_decide (is_Some (session r !! k))) eqn:Ho; cbv iota beta.
  - rewrite !get_from, Hk'. cbn. unfold session_read. cbn. by rewrite lookup_delete_ne.
  - rewrite bool_decide_eq_true_2.
    2:{ destruct Ha as [Hs|Hn]; [|done]. apply bool_decide_eq_false in Ho. by destruct Ho. }
    by rewrite !get_from, Hk'.
Qed.

Lemma storage_get_after_unset_other_witness :
  (run (unset getStorage (VStr "smartId");; get getStorage (VStr "k1")) req_authorized).1 =
    (run (get getStorage (VStr "k1")) req_authorized).1.
Proof.
  apply (storage_get_after_unset_other (VStr "smartId") (VStr "k1") "smartId" "k1"
           req_authorized);
    [split; reflexivity | reflexivity | reflexivity | | right; reflexivity].
  intros H. discriminate H.
Defined.

(** Storing under a property name that is neither an own property of
    the session nor borne by a member it comes with, and removing it
    again, gives back the request as it was, and
    [unset] reports [true]. *)
Theorem storage_set_unset_round_trip key k v r :
  inherits_hasOwnProperty r →
  to_primitive HintString key = Ok k →
  session r !! k = None →
  builtin r !! k = None →
  run (set getStorage key v;; unset getStorage key) r =
    (Ok true, World r [StorageSet k v; StorageUnset k]).
Proof.
  intros [Ho Hi] Hk Hs Hn. unfold run. rewrite mbind_run, set_from, Hk. cbn [req trace].
  rewrite bool_decide_eq_true_2 by by right.
  assert (k ≠ "hasOwnProperty") as Hne by (intros ->; congruence).
  rewrite unset_from, Hk.
  2:{ split; [|done]. cbn. by rewrite lookup_insert_ne. }
  cbn. rewrite lookup_insert_eq. rewrite bool_decide_eq_true_2 by by eexists.
  unfold with_session. cbn. rewrite delete_insert_id by done. by destruct r.
Qed.

Lemma storage_set_unset_round_trip_witness :
  run (set getStorage (VStr "k1") blob_example;; unset getStorage (VStr "k1")) req_dangling =
    (Ok true, World req_dangling [StorageSet "k1" blob_example; StorageUnset "k1"]).
Proof.
  apply (storage_set_unset_round_trip (VStr "k1") "k1" blob_example req_dangling);
    [split; reflexivity | reflexivity | reflexivity | reflexivity].
Defined.

(** A stored [undefined] reads like a missing key ([get] resolves with
    [undefined]) but is an own property all the same: [unset] finds it
    and resolves with [true]. *)
Theorem storage_stored_undefined key k r :
  inherits_hasOwnProperty r →
  to_primitive HintString key = Ok k →
  assignable r k →
  (run (set getStorage key VUndefined;; get getStorage key) r).1 = Ok VUndefined ∧
  (run (set getStorage key VUndefined;; unset getStorage key) r).1 = Ok true.
Proof.
  intros [Ho Hi] Hk Ha. unfold run. rewrite !mbind_run, set_from, Hk. cbn [req trace].
  rewrite bool_decide_eq_true_2 by exact Ha.
  assert (k ≠ "hasOwnProperty") as Hne.
  { intros ->. destruct Ha as [[? Hs]|Hn]; congruence. }
  split.
  - rewrite get_from, Hk. cbn. unfold session_read. cbn. by rewrite lookup_insert_eq.
  - rewrite unset_from, Hk.
    2:{ split; [|done]. cbn. by rewrite lookup_insert_ne. }
    cbn. rewrite lookup_insert_eq. by rewrite bool_decide_eq_true_2 by by eexists.
Qed.

Lemma storage_stored_undefined_witness :
  (run (set getStorage (VStr "k1") VUndefined;; get getStorage (VStr "k1")) req_dangling).1 =
    Ok VUndefined ∧
  (run (set getStorage (VStr "k1") VUndefined;; unset getStorage (VStr "k1")) req_dangling).1 =
    Ok true.
Proof.
  apply (storage_stored_undefined (VStr "k1") "k1" req_dangling);
    [split; reflexivity | reflexivity | right; reflexivity].
Defined.

(** Once the session stores something that is not a function under the
    name [hasOwnProperty], every [unset] throws a TypeError and removes
    nothing. *)
Theorem storage_unset_shadowed_hasOwnProperty key v r :
  session r !! "hasOwnProperty" = Some v →
  is_function v = false →
  ∃ message, run (unset getStorage key) r = (Throw (TypeError message), World r []).
Proof.
  intros Hs Hf. unfold run. cbn. unfold mbind, M_bind, get_request. cbn.
  rewrite (session_read_own _ _ _ Hs). by destruct v; try discriminate Hf; eexists.
Qed.

Lemma storage_unset_shadowed_hasOwnProperty_witness :
  ∃ message,
    run (unset getStorage (VStr "k1")) req_shadowed_hasOwnProperty =
      (Throw (TypeError message), World req_shadowed_hasOwnProperty []).
Proof.
  apply (storage_unset_shadowed_hasOwnProperty (VStr "k1") (VStr "x")
           req_shadowed_hasOwnProperty); reflexivity.
Defined.

(** ** [getClient] and the storage together *)





(** Removing the pointer logs the session out: on a session that
    comes with the built-in [hasOwnProperty] and with no [smartId], after
    [unset("smartId")] [getClient] resolves with [null], whatever else
    the session holds. *)
Theorem getClient_after_unset_pointer opts r :
  session_backed opts →
  inherits_hasOwnProperty r →
  builtin r !! "smartId" = None →
  (run (unset getStorage (VStr "smartId");; getClient opts) r).1 = Ok None.
Proof.
  intros Hs Hh Hi. unfold run. rewrite mbind_run, unset_from by done.
  cbn [to_primitive to_string req trace].
  rewrite (bool_decide_eq_true_2 (builtin r !! "smartId" = None)) by done.
  destruct (bool_decide _) eqn:Hb; cbv iota beta; rewrite getClient_from by done;
    cbn [req].
  - rewrite session_read_missing; [done| |done]. cbn. apply lookup_delete_eq.
  - apply bool_decide_eq_false in Hb.
    rewrite session_read_missing; [done| |done].
    destruct (session r !! "smartId") eqn:Hl; [by destruct Hb; eexists|done].
Qed.

Lemma getClient_after_unset_pointer_witness :
  (run (unset getStorage (VStr "smartId");; getClient plain_options) req_authorized).1 =
    Ok None.
Proof.
  apply (getClient_after_unset_pointer plain_options req_authorized);
    [reflexivity | split; reflexivity | reflexivity].
Defined.





(** [getClient] only reads: on every request, however it ends, it
    leaves the request as it was, starts with the read of [smartId],
    makes at most one more storage access, and every access is a [get]. *)
Theorem getClient_only_reads opts r :
  session_backed opts →
  req (run (getClient opts) r).2 = r ∧
  (∃ more, trace (run (getClient opts) r).2 = StorageGet "smartId" :: more ∧
           (length more ≤ 1)%nat ∧
           Forall (λ e, ∃ key, e = StorageGet key) more).
Proof.
  intros Hs. rewrite getClient_run by done. cbn zeta.
  destruct (truthy (session_read r "smartId")).
  - destruct (to_primitive HintString (session_read r "smartId")) as [k|e|]; cbn;
      (split; [done|]).
    + eexists. split; [done|]. split; [done|]. constructor; [by eexists|constructor].
    + exists []. split; [done|]. split; [cbn; lia|]. constructor.
    + exists []. split; [done|]. split; [cbn; lia|]. constructor.
  - cbn. split; [done|]. exists []. split; [done|]. split; [cbn; lia|]. constructor.
Qed.

Lemma getClient_only_reads_witness :
  req (run (getClient plain_options) req_authorized).2 = req_authorized ∧
  (∃ more, trace (run (getClient plain_options) req_authorized).2 =
             StorageGet "smartId" :: more ∧
           (length more ≤ 1)%nat ∧
           Forall (λ e, ∃ key, e = StorageGet key) more).
Proof. apply (getClient_only_reads plain_options req_authorized). reflexivity. Defined.

(** Pointer and states share one key space: a truthy pointer whose
    property name is ["smartId"] itself is read back as its own state,
    and [getClient] resolves with a client built from the pointer. *)
Theorem getClient_self_pointer opts r id :
  session_backed opts →
  session r !! "smartId" = Some id →
  truthy id = true →
  to_string id = "smartId" →
  (run (getClient opts) r).1 = Ok (Some (new_Client id)).
Proof.
  intros Hs Hid Htid Hself. rewrite getClient_run by done.
  rewrite (session_read_own _ _ _ Hid). cbn zeta. rewrite Htid.
  rewrite (key_of_smartId _ Hself).
  rewrite (session_read_own _ _ _ Hid). cbn. by rewrite Htid.
Qed.

Lemma getClient_self_pointer_witness :
  (run (getClient plain_options) req_self_pointer).1 =
    Ok (Some (new_Client (VStr "smartId"))).
Proof.
  apply (getClient_self_pointer plain_options req_self_pointer (VStr "smartId"));
    reflexivity.
Defined.



(** With a storage of the caller's own, a rejected read of the pointer
    is not turned into [null]: [getClient] rejects with the same error,
    and so does [refreshAuth] called as a method, which then writes no
    response and does not call [next]. *)
Theorem getClient_storage_failure refresh opts st r e w :
  opt_getStorage opts = Some st →
  get st (VStr "smartId") (World r []) = (Throw e, w) →
  run (getClient opts) r = (Throw e, w) ∧
  run (refreshAuth refresh opts AsMethod) r = (Throw e, w).
Proof.
  intros Hst Hget.
  assert (run (getClient opts) r = (Throw e, w)) as Hgc.
  { unfold run, getClient, make_cfg. rewrite Hst. cbn [default cfg_getStorage].
    unfold id. by rewrite mbind_run, Hget. }
  split; [done|]. by rewrite refreshAuth_method_run, Hgc.
Qed.

Lemma getClient_storage_failure_witness :
  run (getClient options_failing_storage) req_authorized =
    (Throw storage_down, World req_authorized []) ∧
  run (refreshAuth refresh_resolving options_failing_storage AsMethod) req_authorized =
    (Throw storage_down, World req_authorized []).
Proof.
  apply (getClient_storage_failure refresh_resolving options_failing_storage
           (failing_storage storage_down) req_authorized); reflexivity.
Defined.

(** ** More on [authorize] *)

(** A configured (truthy) [serverUrl] switches the guard off: every
    request, whatever its query, is handed to the OAuth core and [next]
    is never called. *)
Theorem authorize_serverUrl_always_delegates smart opts r :
  truthy (opt_serverUrl opts) = true →
  trace (run (authorize smart opts) r).2 = [SmartAuthorize].
Proof.
  intros Hu. rewrite authorize_run, Hu, orb_true_r.
  by destruct (smart_authorize smart r).
Qed.

Lemma authorize_serverUrl_always_delegates_witness :
  trace (run (authorize core_resolving options_with_serverUrl) req_code_state).2 =
    [SmartAuthorize].
Proof.
  apply (authorize_serverUrl_always_delegates core_resolving options_with_serverUrl
           req_code_state).
  reflexivity.
Defined.

(** Without [fhirServiceUrl] and without a configured [serverUrl], one
    of [launch] and [iss] alone is not enough: the request is passed to
    [next] untouched. *)
Theorem authorize_launch_needs_iss smart opts r :
  truthy (prop (query r) "fhirServiceUrl") = false →
  truthy (opt_serverUrl opts) = false →
  truthy (prop (query r) "launch") = false ∨ truthy (prop (query r) "iss") = false →
  run (authorize smart opts) r = (Ok (), World r [Next]).
Proof.
  intros Hf Hu Hli. rewrite authorize_run, Hf, Hu.
  by destruct Hli as [-> | ->]; rewrite ?andb_false_r.
Qed.

Lemma authorize_launch_needs_iss_witness :
  run (authorize core_resolving plain_options) req_launch_only =
    (Ok (), World req_launch_only [Next]).
Proof.
  apply (authorize_launch_needs_iss core_resolving plain_options req_launch_only);
    [reflexivity | reflexivity | right; reflexivity].
Defined.

(** ** More on [completeAuth] *)

(** The outcomes of [completeAuth] exclude each other: [res.end] is
    called only for a truthy [error] (never after an exchange, even a
    rejected one), the exchange is attempted exactly for a falsy [error]
    with truthy [code] and [state], and [next] is called exactly for a
    falsy [error] with [code] or [state] falsy. *)
Theorem completeAuth_dispatch smart opts r :
  ((∃ body, ResEnd body ∈ trace (run (completeAuth smart opts) r).2) →
     truthy (prop (query r) "error") = true) ∧
  (SmartCompleteAuth ∈ trace (run (completeAuth smart opts) r).2 ↔
     truthy (prop (query r) "error") = false ∧
     truthy (prop (query r) "code") && truthy (prop (query r) "state") = true) ∧
  (Next ∈ trace (run (completeAuth smart opts) r).2 ↔
     truthy (prop (query r) "error") = false ∧
     truthy (prop (query r) "code") && truthy (prop (query r) "state") = false).
Proof.
  destruct (truthy (prop (query r) "error")) eqn:He.
  - rewrite completeAuth_error_path by done.
    destruct (error_report _ _) as [body|e|]; cbn;
      (split; [done|]); split; no_event.
  - destruct (truthy (prop (query r) "code") && truthy (prop (query r) "state")) eqn:Hcs.
    + apply andb_true_iff in Hcs as [Hc Hs].
      rewrite completeAuth_exchange_path by done.
      destruct (smart_completeAuth smart r) as [[v|e|] s]; [|destruct e|]; cbn;
        (split; [|split]; [absent_event | | no_event]);
        (split; [done|]); intros _; apply list_elem_of_here.
    + rewrite completeAuth_next_path by done. cbn.
      split; [|split]; [absent_event | no_event |].
      split; [done|]. intros _. apply list_elem_of_here.
Qed.

(** When the exchange rejects with an error object, the head is written
    with the error's [httpCode] if that is truthy and with 500 otherwise
    (a missing code, [0], an empty string), always as text/plain; then
    the handler throws the ReferenceError on [msg]. Nothing else is
    called. *)
Theorem completeAuth_rejection_status smart opts r fields s :
  truthy (prop (query r) "error") = false →
  truthy (prop (query r) "code") = true →
  truthy (prop (query r) "state") = true →
  smart_completeAuth smart r = (Throw (VObj fields), s) →
  run (completeAuth smart opts) r =
    (Throw (ReferenceError "msg"),
     World (with_session r s)
       [SmartCompleteAuth;
        ResWriteHead (if truthy (assoc fields "httpCode")
                      then assoc fields "httpCode" else VNum 500)
                     [("Content-Type", "text/plain")]]).
Proof.
  intros He Hc Hs Hx. rewrite completeAuth_exchange_path by done. by rewrite Hx.
Qed.

Lemma completeAuth_rejection_status_witness :
  run (completeAuth (core_rejecting (VObj [("httpCode", VNum 0)])) plain_options)
      req_code_state =
    (Throw (ReferenceError "msg"),
     World (with_session req_code_state ∅)
       [SmartCompleteAuth;
        ResWriteHead (if truthy (assoc [("httpCode", VNum 0)] "httpCode")
                      then assoc [("httpCode", VNum 0)] "httpCode" else VNum 500)
                     [("Content-Type", "text/plain")]]).
Proof.
  apply (completeAuth_rejection_status (core_rejecting (VObj [("httpCode", VNum 0)]))
           plain_options req_code_state [("httpCode", VNum 0)] ∅); reflexivity.
Defined.

(** When the exchange rejects with [undefined] or [null], reading
    [error.httpCode] throws a TypeError before anything is written: the
    exchange is the handler's only call. *)
Theorem completeAuth_rejection_without_reason smart opts r e s :
  truthy (prop (query r) "error") = false →
  truthy (prop (query r) "code") = true →
  truthy (prop (query r) "state") = true →
  smart_completeAuth smart r = (Throw e, s) →
  e = VUndefined ∨ e = VNull →
  ∃ message,
    run (completeAuth smart opts) r =
      (Throw (TypeError message), World (with_session r s) [SmartCompleteAuth]).
Proof.
  intros He Hc Hs Hx Hnull. rewrite completeAuth_exchange_path by done. rewrite Hx.
  by destruct Hnull as [-> | ->]; eexists.
Qed.

Lemma completeAuth_rejection_without_reason_witness :
  ∃ message,
    run (completeAuth (core_rejecting VUndefined) plain_options) req_code_state =
      (Throw (TypeError message), World (with_session req_code_state ∅) [SmartCompleteAuth]).
Proof.
  apply (completeAuth_rejection_without_reason (core_rejecting VUndefined) plain_options
           req_code_state VUndefined ∅); try reflexivity.
  left. reflexivity.
Defined.

(** [completeAuth] itself never touches the request: unless it runs the
    exchange (a truthy [error], or [code] or [state] falsy) the request,
    session included, is left exactly as it was. *)
Theorem completeAuth_without_exchange_keeps_request smart opts r :
  truthy (prop (query r) "error") = true ∨
    truthy (prop (query r) "code") && truthy (prop (query r) "state") = false →
  req (run (completeAuth smart opts) r).2 = r.
Proof.
  intros Hq. destruct (truthy (prop (query r) "error")) eqn:He.
  - rewrite completeAuth_error_path by done. by destruct (error_report _ _).
  - destruct Hq as [Hq|Hq]; [done|]. by rewrite completeAuth_next_path.
Qed.

Lemma completeAuth_without_exchange_keeps_request_witness :
  req (run (completeAuth core_resolving plain_options) req_denied).2 = req_denied.
Proof.
  apply (completeAuth_without_exchange_keeps_request core_resolving plain_options req_denied).
  left. reflexivity.
Defined.

(** An [error] parameter that is an object with a [toString] member of
    its own which is not a function (and no [valueOf] function of its
    own), as [?error[toString]=x] can parse to, cannot be concatenated:
    [completeAuth] throws a TypeError and calls nothing, so no response
    is written. The description is taken to be falsy or convertible. *)
Theorem completeAuth_unprintable_error smart opts r fields m :
  prop (query r) "error" = VObj fields →
  own fields "toString" = Some m →
  is_function m = false →
  (∀ f, own fields "valueOf" ≠ Some (VFun f)) →
  truthy (prop (query r) "error_description") = false ∨
    (∃ d, to_primitive HintDefault (prop (query r) "error_description") = Ok d) →
  ∃ message,
    run (completeAuth smart opts) r = (Throw (TypeError message), World r []).
Proof.
  intros Herr Hts Hm Hvo Hd.
  assert (∃ message, to_primitive HintDefault (VObj fields) = Throw (TypeError message))
    as [message Hthrow].
  { cbn. rewrite Hts.
    destruct (own fields "valueOf") as [[]|]; try (by edestruct Hvo);
      destruct m; try discriminate Hm; by eexists. }
  exists message. rewrite completeAuth_error_path by (by rewrite Herr).
  unfold error_report. rewrite Herr, Hthrow.
  destruct Hd as [-> | [d ->]]; [done|].
  by destruct (truthy (prop (query r) "error_description")).
Qed.

Lemma completeAuth_unprintable_error_witness :
  ∃ message,
    run (completeAuth core_resolving plain_options) req_unprintable_error =
      (Throw (TypeError message), World req_unprintable_error []).
Proof.
  apply (completeAuth_unprintable_error core_resolving plain_options req_unprintable_error
           [("toString", VStr "x")] (VStr "x")); try reflexivity.
  - intros f H. discriminate H.
  - left. reflexivity.
Defined.



(** ** More on [refreshAuth] *)

(** Called as a method of the API object, when [getClient] resolves
    with [null], [refreshAuth] ends the response with the fixed
    lost-session message; apart from the storage reads of [getClient]
    this is its only call, so [next] is not called and no refresh is
    attempted. *)
Theorem refreshAuth_lost_session refresh opts r :
  session_backed opts →
  (run (getClient opts) r).1 = Ok None →
  run (refreshAuth refresh opts AsMethod) r =
    (Ok (), World r (trace (run (getClient opts) r).2 ++
                     [ResEnd (VStr lost_session_message)])) ∧
  handler_calls (trace (run (refreshAuth refresh opts AsMethod) r).2) =
    [ResEnd (VStr lost_session_message)] ∧
  Next ∉ trace (run (refreshAuth refresh opts AsMethod) r).2.
Proof.
  intros Hs. rewrite refreshAuth_method_run, getClient_run by done. cbn zeta.
  destruct (truthy (session_read r "smartId")).
  - destruct (to_primitive HintString (session_read r "smartId")) as [k|e|];
      [|discriminate..].
    destruct (truthy (session_read r k)); cbn; [discriminate|].
    intros _. split; [done|]. split; [done|]. not_in_trace.
  - cbn. intros _. split; [done|]. split; [done|]. not_in_trace.
Qed.

Lemma refreshAuth_lost_session_witness :
  run (refreshAuth refresh_resolving plain_options AsMethod) req_no_pointer =
    (Ok (), World req_no_pointer
              (trace (run (getClient plain_options) req_no_pointer).2 ++
               [ResEnd (VStr lost_session_message)])) ∧
  handler_calls
    (trace (run (refreshAuth refresh_resolving plain_options AsMethod) req_no_pointer).2) =
    [ResEnd (VStr lost_session_message)] ∧
  Next ∉ trace (run (refreshAuth refresh_resolving plain_options AsMethod) req_no_pointer).2.
Proof.
  apply (refreshAuth_lost_session refresh_resolving plain_options req_no_pointer);
    reflexivity.
Defined.







(** ** The concrete cases of the specification *)

Example authorize_configured_serverUrl :
  trace (run (authorize core_resolving options_with_serverUrl) req_no_pointer).2 =
    [SmartAuthorize].
Proof. reflexivity. Qed.

Example authorize_unrelated_request :
  run (authorize core_resolving plain_options) req_no_pointer =
    (Ok (), World req_no_pointer [Next]).
Proof. reflexivity. Qed.

Example completeAuth_denied_body :
  handler_calls (trace (run (completeAuth core_resolving plain_options) req_denied).2) =
    [Debug (VStr ("access_denied" +:+ colon_newline +:+ "user cancelled"));
     ResEnd (VStr ("access_denied" +:+ colon_newline +:+ "user cancelled"))].
Proof. reflexivity. Qed.

Example completeAuth_rejection_without_status :
  trace (run (completeAuth (core_rejecting (VObj [("message", VStr "boom")])) plain_options)
             req_code_state).2 =
    [SmartCompleteAuth; ResWriteHead (VNum 500) [("Content-Type", "text/plain")]].
Proof. reflexivity. Qed.
